(** * chonkie.cloud.chunker.code: the cloud [CodeChunker] client

    A shallow embedding of [src/chonkie/cloud/chunker/code.py] and the
    properties of its constructor, of [chunk] and of [__call__].

    The client builds one JSON payload, sends one HTTP request and maps
    the JSON answer to [CodeChunk] records.  Everything it touches
    outside itself (the process environment, the remote service) is part
    of an explicit [World]; exceptions are values of type [Exn], and the
    code runs in a state-and-exception monad whose state survives a
    raised exception, so that what was sent before a failure stays
    visible. *)

From Stdlib Require Import ZArith List String Ascii Bool Lia DecimalString.
From Stdlib Require DecimalPos DecimalZ.
Import ListNotations.
Open Scope string_scope.
#[local] Set Warnings "-register-all".

(** ** Python values *)

(** The values [response.json()] can return and [json=payload] can
    carry.  A dict keeps its entries in insertion order. *)
Inductive pyval : Type :=
| PyNone
| PyBool (b : bool)
| PyInt (n : Z)
| PyFloat (repr : string)
| PyStr (s : string)
| PyList (items : list pyval)
| PyDict (entries : list (string * pyval)).

(** An instance of a subclass of Python's [Exception]: its class name,
    [str(e)], and [e.__cause__] (set by [raise ... from ...]).  Signals
    that derive from [BaseException] only (KeyboardInterrupt, SystemExit)
    are outside the model. *)
Inductive Exn : Type :=
| mkExn (cls : string) (msg : string) (cause : option Exn).

Definition exn_class (e : Exn) : string := let (c, _, _) := e in c.
Definition exn_str (e : Exn) : string := let (_, m, _) := e in m.
Definition exn_cause (e : Exn) : option Exn := let (_, _, c) := e in c.

(** [ValueError(msg)] and [ValueError(msg)] raised [from cause]. *)
Definition ValueError (msg : string) : Exn := mkExn "ValueError" msg None.
Definition ValueError_from (msg : string) (cause : Exn) : Exn :=
  mkExn "ValueError" msg (Some cause).
Definition TypeError (msg : string) : Exn := mkExn "TypeError" msg None.

(** The outcome of evaluating a Python expression. *)
Inductive result (A : Type) : Type :=
| Ok (a : A)
| Raise (e : Exn).
Arguments Ok {A} a.
Arguments Raise {A} e.

(** [str(n)] for an [int], as f-strings render it. *)
Definition str_int (n : Z) : string := NilZero.string_of_int (Z.to_int n).

(** [str(x)] for an [Optional[str]]. *)
Definition str_opt (x : option string) : string :=
  match x with
  | Some s => s
  | None => "None"
  end.

(** Truthiness of an [Optional[str]]: [None] and the empty string are
    falsy. *)
Definition truthy (x : option string) : bool :=
  match x with
  | Some s => negb (s =? "")
  | None => false
  end.

(** The name Python prints for the type of a value. *)
Definition type_name (v : pyval) : string :=
  match v with
  | PyNone => "NoneType"
  | PyBool _ => "bool"
  | PyInt _ => "int"
  | PyFloat _ => "float"
  | PyStr _ => "str"
  | PyList _ => "list"
  | PyDict _ => "dict"
  end.

(** The one-character strings of a string, in order. *)
Fixpoint chars (s : string) : list pyval :=
  match s with
  | EmptyString => []
  | String c s' => PyStr (String c EmptyString) :: chars s'
  end.

(** What [for x in v] ranges over: the elements of a list, the keys of a
    dict, the characters of a string; any other value is not iterable. *)
Definition py_iter (v : pyval) : result (list pyval) :=
  match v with
  | PyList items => Ok items
  | PyDict entries => Ok (map (fun kv => PyStr (fst kv)) entries)
  | PyStr s => Ok (chars s)
  | _ => Raise (TypeError ("'" ++ type_name v ++ "' object is not iterable"))
  end.

(** ** The state-and-exception monad *)

Definition M (S A : Type) : Type := S -> result A * S.

Definition ret {S A : Type} (a : A) : M S A := fun s => (Ok a, s).

Definition bind {S A B : Type} (m : M S A) (k : A -> M S B) : M S B :=
  fun s =>
    match m s with
    | (Ok a, s') => k a s'
    | (Raise e, s') => (Raise e, s')
    end.

Definition raise {S A : Type} (e : Exn) : M S A := fun s => (Raise e, s).

(** A pure expression that may raise. *)
Definition eval {S A : Type} (r : result A) : M S A := fun s => (r, s).

(** [try: body  except Exception as error: handler]. *)
Definition try_except {S A : Type} (body : M S A) (handler : Exn -> M S A)
  : M S A :=
  fun s =>
    match body s with
    | (Ok a, s') => (Ok a, s')
    | (Raise error, s') => handler error s'
    end.

Declare Scope py_scope.
Delimit Scope py_scope with py.
Notation "x <- m ;; k" := (bind m (fun x => k))
  (at level 100, m at next level, right associativity) : py_scope.
Open Scope py_scope.

(** [acc = init; for x in items: acc = body(x, acc)]. *)
Fixpoint for_in {S A B : Type} (items : list A) (body : A -> B -> M S B)
  (acc : B) : M S B :=
  match items with
  | [] => ret acc
  | x :: rest => acc' <- body x acc ;; for_in rest body acc'
  end.

(** ** The world outside the client *)

(** The HTTP requests the client can issue. *)
Inductive Request : Type :=
| GET (url : string)
| POST (url : string) (json : pyval) (headers : list (string * string)).

(** A [requests.Response]: [json] is what [response.json()] does, a
    decoded body or the decoding error. *)
Record Response : Type := mkResponse {
  status_code : Z;
  text : string;
  json : result pyval
}.

(** [environ] is [os.environ]; [remote] is the network and the service
    behind it: given the requests sent so far and the next one, it hands
    back a response or raises a transport error; [sent] logs every
    request issued, oldest first. *)
Record World : Type := mkWorld {
  environ : string -> option string;
  remote : list Request -> Request -> result Response;
  sent : list Request
}.

Definition send (req : Request) : M World Response :=
  fun w =>
    (remote w (sent w) req,
     {| environ := environ w; remote := remote w; sent := sent w ++ [req] |}).

Module os.
Definition getenv (name : string) : M World (option string) :=
  fun w => (Ok (environ w name), w).
End os.

Module requests.
Definition get (url : string) : M World Response := send (GET url).
Definition post (url : string) (json : pyval)
  (headers : list (string * string)) : M World Response :=
  send (POST url json headers).
End requests.

(** [a or b] on [Optional[str]]: [b] is evaluated only when [a] is
    falsy. *)
Definition py_or {S : Type} (a : option string) (b : M S (option string))
  : M S (option string) :=
  if truthy a then ret a else b.

(** ** CodeChunker *)

(** The attributes of a [CodeChunker] instance. *)
Record CodeChunker : Type := mkCodeChunker {
  api_key : option string;
  tokenizer_or_token_counter : string;
  chunk_size : Z;
  language : string
}.

Definition BASE_URL : string := "https://api.chonkie.ai".
Definition VERSION : string := "v1".

(** The four failures the client raises itself.  The source raises the
    builtin [ValueError] at each of them; the specification names them
    ConfigurationError (missing API key, invalid chunk size),
    ServiceUnavailableError, RemoteRequestError and ResponseParseError. *)
Definition missing_api_key : Exn :=
  ValueError
    ("No API key provided. Please set the CHONKIE_API_KEY environment variable"
     ++ " or pass an API key to the CodeChunker constructor.").

Definition invalid_chunk_size : Exn :=
  ValueError "Chunk size must be greater than 0.".

Definition service_unavailable : Exn :=
  ValueError
    ("Oh no! You caught Chonkie at a bad time. It seems to be down right now."
     ++ " Please try again in a short while."
     ++ " If the issue persists, please contact support at support@chonkie.ai or raise an issue on GitHub.").

Definition remote_request_error (response : Response) : Exn :=
  ValueError
    ("Error from the Chonkie API: " ++ str_int (status_code response)
     ++ " " ++ text response).

Definition response_parse_error (error : Exn) : Exn :=
  ValueError_from ("Error parsing the response: " ++ exn_str error) error.

(** [CodeChunker(tokenizer_or_token_counter, chunk_size, language,
    api_key)].  The attributes [__init__] assigns are kept in local
    bindings and the instance is assembled when [__init__] returns: an
    [__init__] that raises leaves no reference to the object behind. *)
Definition __init__ (tokenizer_or_token_counter : string) (chunk_size : Z)
  (language : string) (api_key : option string) : M World CodeChunker :=
  self_api_key <- py_or api_key (os.getenv "CHONKIE_API_KEY") ;;
  if negb (truthy self_api_key) then raise missing_api_key
  else if (chunk_size <=? 0)%Z then raise invalid_chunk_size
  else
    response <- requests.get (BASE_URL ++ "/") ;;
    if negb (status_code response =? 200)%Z then raise service_unavailable
    else
      ret {| api_key := self_api_key;
             tokenizer_or_token_counter := tokenizer_or_token_counter;
             chunk_size := chunk_size;
             language := language |}.

(** A method runs on its instance and the world around it. *)
Record Store : Type := mkStore {
  self : CodeChunker;
  world : World
}.

(** Reading [self], and assigning to it (which [chunk] never does). *)
Definition get_self : M Store CodeChunker := fun st => (Ok (self st), st).

Definition set_self (obj : CodeChunker) : M Store unit :=
  fun st => (Ok tt, {| self := obj; world := world st |}).

Definition in_world {A : Type} (m : M World A) : M Store A :=
  fun st =>
    let (r, w) := m (world st) in
    (r, {| self := self st; world := w |}).

(** The argument of [chunk]: [Union[str, List[str]]]. *)
Inductive Text : Type :=
| Str (s : string)
| Lst (l : list string).

Definition text_value (text : Text) : pyval :=
  match text with
  | Str s => PyStr s
  | Lst l => PyList (map PyStr l)
  end.

(** Modelled from the spec: [CodeChunk] and [CodeChunk.from_dict] belong
    to chonkie.types, which is not among the sources.  The methods below
    take the record type and [from_dict] as parameters; this instance,
    a chunk with its text, its token count and its position, whose
    [from_dict] rejects an object that lacks one of the fields, only
    serves to run them on concrete responses. *)
Module Sample.

Record CodeChunk : Type := mkCodeChunk {
  chunk_text : string;
  start_index : Z;
  end_index : Z;
  token_count : Z
}.

Fixpoint lookup (key : string) (entries : list (string * pyval))
  : result pyval :=
  match entries with
  | [] => Raise (mkExn "KeyError" ("'" ++ key ++ "'") None)
  | (k, v) :: rest => if k =? key then Ok v else lookup key rest
  end.

Definition as_str (v : pyval) : result string :=
  match v with
  | PyStr s => Ok s
  | _ => Raise (TypeError ("expected str, got " ++ type_name v))
  end.

Definition as_int (v : pyval) : result Z :=
  match v with
  | PyInt n => Ok n
  | _ => Raise (TypeError ("expected int, got " ++ type_name v))
  end.

Definition and_then {A B : Type} (r : result A) (k : A -> result B)
  : result B :=
  match r with
  | Ok a => k a
  | Raise e => Raise e
  end.

Definition from_dict (data : pyval) : result CodeChunk :=
  match data with
  | PyDict entries =>
      and_then (and_then (lookup "text" entries) as_str) (fun t =>
      and_then (and_then (lookup "start_index" entries) as_int) (fun s =>
      and_then (and_then (lookup "end_index" entries) as_int) (fun e =>
      and_then (and_then (lookup "token_count" entries) as_int) (fun n =>
      Ok (mkCodeChunk t s e n)))))
  | _ => Raise (TypeError ("expected dict, got " ++ type_name data))
  end.

End Sample.

Section Methods.

(** [chonkie.types.CodeChunk] and its classmethod [from_dict]. *)
Variable CodeChunk : Type.
Variable from_dict : pyval -> result CodeChunk.

(** What [chunk] returns:
    [Union[List[CodeChunk], List[List[CodeChunk]]]]. *)
Inductive Chunks : Type :=
| Flat (chunks : list CodeChunk)
| Batch (chunks : list (list CodeChunk)).

Definition chunk (text : Text) : M Store Chunks :=
  self <- get_self ;;
  let payload :=
    PyDict [ ("text", text_value text);
             ("tokenizer_or_token_counter",
              PyStr (tokenizer_or_token_counter self));
             ("chunk_size", PyInt (chunk_size self));
             ("language", PyStr (language self));
             ("lang", PyStr (language self));
             ("include_nodes", PyBool false) ] in
  response <-
    in_world
      (requests.post (BASE_URL ++ "/" ++ VERSION ++ "/chunk/code") payload
         [("Authorization", "Bearer " ++ str_opt (api_key self))]) ;;
  if negb (status_code response =? 200)%Z
  then raise (remote_request_error response)
  else
    try_except
      (match text with
       | Lst _ =>
           batch_result <- eval (json response) ;;
           chunk_lists <- eval (py_iter batch_result) ;;
           batch_chunks <-
             for_in chunk_lists
               (fun chunk_list batch_chunks =>
                  chunk_list <- eval (py_iter chunk_list) ;;
                  curr_chunks <-
                    for_in chunk_list
                      (fun chunk curr_chunks =>
                         c <- eval (from_dict chunk) ;;
                         ret (curr_chunks ++ [c])%list)
                      [] ;;
                  ret (batch_chunks ++ [curr_chunks])%list)
               [] ;;
           ret (Batch batch_chunks)
       | Str _ =>
           single_result <- eval (json response) ;;
           single_result <- eval (py_iter single_result) ;;
           single_chunks <-
             for_in single_result
               (fun chunk single_chunks =>
                  c <- eval (from_dict chunk) ;;
                  ret (single_chunks ++ [c])%list)
               [] ;;
           ret (Flat single_chunks)
       end)
      (fun error => raise (response_parse_error error)).

Definition __call__ (text : Text) : M Store Chunks := chunk text.

End Methods.

Arguments Flat {CodeChunk} chunks.
Arguments Batch {CodeChunk} chunks.
Arguments chunk {CodeChunk} from_dict text _.
Arguments __call__ {CodeChunk} from_dict text _.

(** ** Vocabulary of the statements *)

(** [f] applied to every element in order: all the images, or the first
    exception met. *)
Fixpoint map_result {A B : Type} (f : A -> result B) (l : list A)
  : result (list B) :=
  match l with
  | [] => Ok []
  | x :: rest =>
      match f x with
      | Raise e => Raise e
      | Ok y =>
          match map_result f rest with
          | Raise e => Raise e
          | Ok ys => Ok (y :: ys)
          end
      end
  end.

(** [sub] occurs in [s]. *)
Definition contains (sub s : string) : Prop :=
  exists pre post, s = pre ++ sub ++ post.

(** The world after one more request. *)
Definition logged (req : Request) (w : World) : World :=
  {| environ := environ w; remote := remote w; sent := sent w ++ [req] |}.

(** The answer of the remote side to [req] sent next. *)
Definition reply (w : World) (req : Request) : result Response :=
  remote w (sent w) req.

(** The liveness probe of the constructor and the request of [chunk]. *)
Definition probe : Request := GET "https://api.chonkie.ai/".

Definition chunk_request (self : CodeChunker) (text : Text) : Request :=
  POST "https://api.chonkie.ai/v1/chunk/code"
    (PyDict [ ("text", text_value text);
              ("tokenizer_or_token_counter",
               PyStr (tokenizer_or_token_counter self));
              ("chunk_size", PyInt (chunk_size self));
              ("language", PyStr (language self));
              ("lang", PyStr (language self));
              ("include_nodes", PyBool false) ])
    [("Authorization", "Bearer " ++ str_opt (api_key self))].

Definition is_post (req : Request) : bool :=
  match req with
  | POST _ _ _ => true
  | GET _ => false
  end.

(** The key the constructor settles on: the argument when it is given
    and not empty, else the environment variable. *)
Definition resolved_key (api_key : option string) (w : World)
  : option string :=
  if truthy api_key then api_key else environ w "CHONKIE_API_KEY".

Section Mapping.

Variable CodeChunk : Type.
Variable from_dict : pyval -> result CodeChunk.

(** [chunks] are the images of [items], one for one and in order. *)
Definition maps_to (items : list pyval) (chunks : list CodeChunk) : Prop :=
  Forall2 (fun item c => from_dict item = Ok c) items chunks.

(** The chunks of one iterable of chunk objects. *)
Definition map_items (v : pyval) : result (list CodeChunk) :=
  match py_iter v with
  | Raise e => Raise e
  | Ok items => map_result from_dict items
  end.

(** The whole structure mapped from a response, or the first exception
    met on the way: by [response.json()], by an iteration, or by
    [from_dict]. *)
Definition mapped (text : Text) (response : Response)
  : result (Chunks CodeChunk) :=
  match json response with
  | Raise e => Raise e
  | Ok body =>
      match text with
      | Str _ =>
          match map_items body with
          | Raise e => Raise e
          | Ok chunks => Ok (Flat chunks)
          end
      | Lst _ =>
          match py_iter body with
          | Raise e => Raise e
          | Ok rows =>
              match map_result map_items rows with
              | Raise e => Raise e
              | Ok chunks => Ok (Batch chunks)
              end
          end
      end
  end.

(** [r] has the shape of the input and is mapped from [body] element
    by element. *)
Definition follows (text : Text) (body : pyval) (r : Chunks CodeChunk)
  : Prop :=
  match text, r with
  | Str _, Flat chunks =>
      exists items, py_iter body = Ok items /\ maps_to items chunks
  | Lst _, Batch chunks =>
      exists rows,
        py_iter body = Ok rows /\
        Forall2
          (fun row cs =>
             exists items, py_iter row = Ok items /\ maps_to items cs)
          rows chunks
  | _, _ => False
  end.

End Mapping.

Arguments maps_to {CodeChunk} from_dict items chunks.
Arguments map_items {CodeChunk} from_dict v.
Arguments mapped {CodeChunk} from_dict text response.
Arguments follows {CodeChunk} from_dict text body r.

(** What the constructor makes of the answer to its probe. *)
Definition after_probe (w : World) (obj : CodeChunker) : result CodeChunker :=
  match reply w probe with
  | Raise e => Raise e
  | Ok response =>
      if (status_code response =? 200)%Z then Ok obj
      else Raise service_unavailable
  end.

(** ** Sample runs *)

(** A JSON text for a value, in the layout of Python's [json.dumps];
    used to give the sample answers below a body text that agrees with
    what their [json] decodes to (strings are taken to need no
    escaping). *)
Definition quoted (s : string) : string :=
  String (ascii_of_nat 34) (s ++ String (ascii_of_nat 34) "").

Fixpoint dumps (v : pyval) : string :=
  match v with
  | PyNone => "null"
  | PyBool true => "true"
  | PyBool false => "false"
  | PyInt n => str_int n
  | PyFloat repr => repr
  | PyStr s => quoted s
  | PyList items =>
      "["
      ++ (fix elements (l : list pyval) : string :=
            match l with
            | [] => ""
            | [x] => dumps x
            | x :: rest => dumps x ++ ", " ++ elements rest
            end) items
      ++ "]"
  | PyDict entries =>
      "{"
      ++ (fix members (l : list (string * pyval)) : string :=
            match l with
            | [] => ""
            | [(k, x)] => quoted k ++ ": " ++ dumps x
            | (k, x) :: rest =>
                quoted k ++ ": " ++ dumps x ++ ", " ++ members rest
            end) entries
      ++ "}"
  end.

(** An answer with status 200 and a JSON body. *)
Definition answer_ok (body : pyval) : Response :=
  mkResponse 200 (dumps body) (Ok body).

(** An answer whose body is plain text: it does not decode. *)
Definition answer_text (status : Z) (body : string) : Response :=
  mkResponse status body
    (Raise (mkExn "JSONDecodeError"
              "Expecting value: line 1 column 1 (char 0)" None)).

(** A world whose environment holds [env_key] (if any) under
    CHONKIE_API_KEY, whose service answers the probe with status
    [probe_status] and every POST with [answer]. *)
Definition sample_world (env_key : option string) (probe_status : Z)
  (answer : Response) : World :=
  mkWorld
    (fun name => if name =? "CHONKIE_API_KEY" then env_key else None)
    (fun _ req =>
       match req with
       | GET _ => Ok (answer_text probe_status "")
       | POST _ _ _ => Ok answer
       end)
    [].

Definition sample_object (t : string) (s e n : Z) : pyval :=
  PyDict [ ("text", PyStr t); ("start_index", PyInt s);
           ("end_index", PyInt e); ("token_count", PyInt n) ].

Definition sample_client : CodeChunker :=
  mkCodeChunker (Some "secret") "gpt2" 512 "python".

Definition sample_store (answer : Response) : Store :=
  mkStore sample_client (sample_world None 200 answer).

(** ** Vocabulary of the further properties *)

(** [isinstance(text, list)]. *)
Definition is_list (text : Text) : bool :=
  match text with
  | Lst _ => true
  | Str _ => false
  end.

(** A caller that makes one call of [chunk] per text, one after the
    other, and keeps every outcome, result or exception. *)
Fixpoint calls {CodeChunk : Type} (from_dict : pyval -> result CodeChunk)
  (texts : list Text) (st : Store)
  : list (result (Chunks CodeChunk)) * Store :=
  match texts with
  | [] => ([], st)
  | t :: rest =>
      let (r, st') := chunk from_dict t st in
      let (rs, st'') := calls from_dict rest st' in
      (r :: rs, st'')
  end.

(** No character of [s] is a space. *)
Fixpoint no_space (s : string) : bool :=
  match s with
  | EmptyString => true
  | String c s' => negb (Ascii.eqb c " ") && no_space s'
  end.

(** A world without network: every request fails in transport. *)
Definition offline_world : World :=
  mkWorld (fun _ => None)
    (fun _ _ =>
       Raise (mkExn "ConnectionError" "Max retries exceeded with url" None))
    [].

(** ** Auxiliary lemmas *)

Lemma map_result_Ok {A B : Type} (f : A -> result B) :
  forall l ys, map_result f l = Ok ys -> Forall2 (fun x y => f x = Ok y) l ys.
Proof.
  induction l as [|x rest IH]; simpl; intros ys H.
  - injection H as <-. constructor.
  - destruct (f x) as [y|e] eqn:Hx; [|discriminate].
    destruct (map_result f rest) as [ys'|e] eqn:Hr; [|discriminate].
    injection H as <-. constructor; auto.
Qed.

Lemma Forall2_map_result {A B : Type} (f : A -> result B) :
  forall l ys, Forall2 (fun x y => f x = Ok y) l ys -> map_result f l = Ok ys.
Proof.
  induction 1 as [|x y l ys Hx _ IH]; simpl; [reflexivity|].
  now rewrite Hx, IH.
Qed.

(** A loop that appends the image of each element to its accumulator
    computes [map_result], whatever the state. *)
Lemma for_in_collect {S A B : Type} (g : A -> result B)
  (body : A -> list B -> M S (list B)) :
  (forall x acc s,
      body x acc s =
      (match g x with
       | Ok y => Ok (acc ++ [y])%list
       | Raise e => Raise e
       end, s)) ->
  forall items acc s,
    for_in items body acc s =
    (match map_result g items with
     | Ok ys => Ok (acc ++ ys)%list
     | Raise e => Raise e
     end, s).
Proof.
  intros Hbody. induction items as [|x rest IH]; intros acc s; simpl.
  - unfold ret. now rewrite app_nil_r.
  - unfold bind. rewrite Hbody. destruct (g x) as [y|e]; [|reflexivity].
    rewrite IH. destruct (map_result g rest) as [ys|e]; [|reflexivity].
    now rewrite <- app_assoc.
Qed.

Lemma collect_chunks {S CodeChunk : Type}
  (from_dict : pyval -> result CodeChunk) (items : list pyval) (s : S) :
  for_in items
    (fun chunk acc => c <- eval (from_dict chunk) ;; ret (acc ++ [c])%list)
    [] s =
  (map_result from_dict items, s).
Proof.
  rewrite (for_in_collect from_dict).
  - now destruct (map_result from_dict items).
  - intros x acc s'. unfold bind, eval, ret. now destruct (from_dict x).
Qed.

Lemma collect_batches {S CodeChunk : Type}
  (from_dict : pyval -> result CodeChunk) (rows : list pyval) (s : S) :
  for_in rows
    (fun chunk_list batch_chunks =>
       chunk_list <- eval (py_iter chunk_list) ;;
       curr_chunks <-
         for_in chunk_list
           (fun chunk acc =>
              c <- eval (from_dict chunk) ;; ret (acc ++ [c])%list)
           [] ;;
       ret (batch_chunks ++ [curr_chunks])%list)
    [] s =
  (map_result (map_items from_dict) rows, s).
Proof.
  rewrite (for_in_collect (map_items from_dict)).
  - now destruct (map_result (map_items from_dict) rows).
  - intros row acc s'.
    set (inner := fun (chunk : pyval) (curr : list CodeChunk) =>
                    bind (eval (from_dict chunk)) _).
    unfold map_items, bind, eval, ret.
    destruct (py_iter row) as [items|e]; [|reflexivity].
    subst inner. rewrite collect_chunks.
    now destruct (map_result from_dict items).
Qed.

(** The constructor, run: the key check, the size check, then the
    probe, whose answer decides. *)
Lemma init_run tok size lang key w :
  __init__ tok size lang key w =
  if negb (truthy (resolved_key key w)) then (Raise missing_api_key, w)
  else if (size <=? 0)%Z then (Raise invalid_chunk_size, w)
  else
    (match reply w probe with
     | Raise e => Raise e
     | Ok response =>
         if (status_code response =? 200)%Z
         then Ok (mkCodeChunker (resolved_key key w) tok size lang)
         else Raise service_unavailable
     end, logged probe w).
Proof.
  unfold __init__, py_or, resolved_key, bind, os.getenv, ret.
  destruct (truthy key) eqn:Hk.
  - rewrite Hk. simpl. destruct (size <=? 0)%Z; [reflexivity|].
    unfold requests.get, send, reply, probe, logged, raise. simpl.
    destruct (remote w (sent w) _) as [response|e]; [|reflexivity].
    now destruct (status_code response =? 200)%Z.
  - destruct (truthy (environ w "CHONKIE_API_KEY")); simpl; [|reflexivity].
    destruct (size <=? 0)%Z; [reflexivity|].
    unfold requests.get, send, reply, probe, logged, raise. simpl.
    destruct (remote w (sent w) _) as [response|e]; [|reflexivity].
    now destruct (status_code response =? 200)%Z.
Qed.

(** [chunk], run: one POST, whose answer decides. *)
Lemma chunk_run {CodeChunk : Type} (from_dict : pyval -> result CodeChunk)
  txt st :
  chunk from_dict txt st =
  (match reply (world st) (chunk_request (self st) txt) with
   | Raise e => Raise e
   | Ok response =>
       if (status_code response =? 200)%Z
       then match mapped from_dict txt response with
            | Ok r => Ok r
            | Raise e => Raise (response_parse_error e)
            end
       else Raise (remote_request_error response)
   end,
   mkStore (self st) (logged (chunk_request (self st) txt) (world st))).
Proof.
  unfold chunk.
  set (inner := fun (chunk : pyval) (acc : list CodeChunk) =>
                  bind (eval (from_dict chunk)) _).
  set (outer := fun (chunk_list : pyval) (acc : list (list CodeChunk)) =>
                  bind (eval (py_iter chunk_list)) _).
  unfold bind, get_self, in_world, requests.post, send, reply, logged.
  change (BASE_URL ++ "/" ++ VERSION ++ "/chunk/code")
    with "https://api.chonkie.ai/v1/chunk/code".
  fold (chunk_request (self st) txt).
  destruct (remote (world st) (sent (world st)) _) as [response|e];
    [|reflexivity].
  destruct (status_code response =? 200)%Z; simpl; [|reflexivity].
  unfold try_except, mapped, eval, raise, ret.
  destruct txt as [s|l]; destruct (json response) as [body|e];
    try reflexivity.
  - unfold map_items. destruct (py_iter body) as [items|e]; [|reflexivity].
    subst inner. rewrite collect_chunks.
    now destruct (map_result from_dict items).
  - destruct (py_iter body) as [rows|e]; [|reflexivity].
    subst outer inner. rewrite collect_batches.
    now destruct (map_result (map_items from_dict) rows).
Qed.

Lemma append_nil_r (s : string) : s ++ "" = s.
Proof. induction s as [|c s IH]; simpl; [reflexivity | now rewrite IH]. Qed.

Lemma append_assoc (s1 s2 s3 : string) :
  (s1 ++ s2) ++ s3 = s1 ++ (s2 ++ s3).
Proof. induction s1 as [|c s1 IH]; simpl; [reflexivity | now rewrite IH]. Qed.

Lemma truthy_resolved key w :
  truthy (resolved_key key w) =
  truthy key || truthy (environ w "CHONKIE_API_KEY").
Proof. unfold resolved_key. now destruct (truthy key) eqn:Hk. Qed.

Lemma truthy_Some k : truthy (Some k) = true <-> k <> "".
Proof.
  simpl. rewrite negb_true_iff. split.
  - intros H ->. discriminate.
  - intros H. destruct (String.eqb_spec k ""); congruence.
Qed.

Lemma logged_sent req w : sent (logged req w) = (sent w ++ [req])%list.
Proof. reflexivity. Qed.

Lemma app_one_neq {A : Type} (l : list A) (x : A) : (l ++ [x])%list <> l.
Proof.
  intros H. apply (f_equal (@List.length A)) in H.
  rewrite length_app in H. simpl in H. lia.
Qed.

(** The constructor either stops at one of its two checks, leaving the
    world as it was, or goes on to the probe. *)
Lemma init_cases tok size lang key w :
  (truthy (resolved_key key w) = false /\
   __init__ tok size lang key w = (Raise missing_api_key, w)) \/
  (truthy (resolved_key key w) = true /\ (size <= 0)%Z /\
   __init__ tok size lang key w = (Raise invalid_chunk_size, w)) \/
  (truthy (resolved_key key w) = true /\ (0 < size)%Z /\
   __init__ tok size lang key w =
   (after_probe w (mkCodeChunker (resolved_key key w) tok size lang),
    logged probe w)).
Proof.
  rewrite init_run. unfold after_probe.
  destruct (truthy (resolved_key key w)); simpl; [|now left].
  right. destruct (Z.leb_spec size 0); [left | right]; auto.
Qed.

(** ** The constructor *)

(** C3.  With an API key at hand (given, or in the environment), the
    constructor called with a chunk size that is zero or negative raises
    the ValueError "Chunk size must be greater than 0." and touches
    nothing; with a positive chunk size it gets past this check: it
    issues the probe, whose answer alone decides the outcome. *)
Theorem chunk_size_check tok size lang key w :
  truthy key = true \/ truthy (environ w "CHONKIE_API_KEY") = true ->
  ((size <= 0)%Z ->
   __init__ tok size lang key w =
   (Raise (ValueError "Chunk size must be greater than 0."), w)) /\
  ((0 < size)%Z ->
   __init__ tok size lang key w =
   (after_probe w (mkCodeChunker (resolved_key key w) tok size lang),
    logged probe w)).
Proof.
  intros Hkey.
  assert (Hr : truthy (resolved_key key w) = true).
  { rewrite truthy_resolved. apply orb_true_iff. exact Hkey. }
  destruct (init_cases tok size lang key w) as [[H _]|[(_ & Hs & E)|(_ & Hs & E)]].
  - congruence.
  - split; [intros _; exact E | lia].
  - split; [lia | intros _; exact E].
Qed.

(** C4.  The constructor settles on its key as follows.  An argument
    that is given and not empty is the key: the constructor then does
    what the size check and the probe decide, for a client that holds
    the argument, whatever the environment says.  Otherwise the value
    of CHONKIE_API_KEY, when set and not empty, is the key in the same
    way.  In both cases, with a positive chunk size and a probe answered
    200, the constructor returns the client holding that key.  And it
    stops with the ValueError "No API key provided...", nothing sent,
    exactly when neither is a non-empty string, whatever the other
    arguments. *)
Theorem api_key_resolution tok size lang key w :
  (forall k,
      key = Some k -> k <> "" ->
      __init__ tok size lang key w =
      if (size <=? 0)%Z then (Raise invalid_chunk_size, w)
      else (after_probe w (mkCodeChunker (Some k) tok size lang),
            logged probe w)) /\
  (forall k,
      key = None \/ key = Some "" ->
      environ w "CHONKIE_API_KEY" = Some k -> k <> "" ->
      __init__ tok size lang key w =
      if (size <=? 0)%Z then (Raise invalid_chunk_size, w)
      else (after_probe w (mkCodeChunker (Some k) tok size lang),
            logged probe w)) /\
  (forall k response,
      key = Some k \/
      (key = None \/ key = Some "") /\ environ w "CHONKIE_API_KEY" = Some k ->
      k <> "" ->
      (0 < size)%Z ->
      reply w (GET "https://api.chonkie.ai/") = Ok response ->
      status_code response = 200%Z ->
      __init__ tok size lang key w =
      (Ok (mkCodeChunker (Some k) tok size lang),
       logged (GET "https://api.chonkie.ai/") w)) /\
  (__init__ tok size lang key w = (Raise missing_api_key, w) <->
   (key = None \/ key = Some "") /\
   (environ w "CHONKIE_API_KEY" = None \/
    environ w "CHONKIE_API_KEY" = Some "")).
Proof.
  assert (Hfalsy : forall x : option string,
             truthy x = false <-> x = None \/ x = Some "").
  { intros [x|]; simpl.
    - rewrite negb_false_iff, String.eqb_eq. split.
      + intros ->. now right.
      + intros [H|H]; [discriminate | now injection H].
    - split; [now left | reflexivity]. }
  assert (Hrun : forall k,
             resolved_key key w = Some k -> k <> "" ->
             __init__ tok size lang key w =
             if (size <=? 0)%Z then (Raise invalid_chunk_size, w)
             else (after_probe w (mkCodeChunker (Some k) tok size lang),
                   logged probe w)).
  { intros k Hres Hk. rewrite init_run, Hres.
    apply truthy_Some in Hk. rewrite Hk. reflexivity. }
  assert (Hgiven : forall k, key = Some k -> k <> "" ->
                             resolved_key key w = Some k).
  { intros k -> Hk. unfold resolved_key.
    apply truthy_Some in Hk. now rewrite Hk. }
  assert (Henv : forall k, key = None \/ key = Some "" ->
                           environ w "CHONKIE_API_KEY" = Some k ->
                           resolved_key key w = Some k).
  { intros k Hkey He. unfold resolved_key.
    apply Hfalsy in Hkey. now rewrite Hkey. }
  split; [|split; [|split]].
  - intros k Hkey Hk. apply Hrun; auto.
  - intros k Hkey He Hk. apply Hrun; auto.
  - intros k response Hsrc Hk Hsize Hreply H200.
    assert (Hres : resolved_key key w = Some k).
    { destruct Hsrc as [Hkey|[Hkey He]]; auto. }
    rewrite (Hrun k Hres Hk).
    destruct (Z.leb_spec size 0); [lia|].
    unfold after_probe. fold probe in Hreply. rewrite Hreply, H200.
    reflexivity.
  - rewrite <- !Hfalsy, <- orb_false_iff, <- truthy_resolved.
    destruct (init_cases tok size lang key w)
      as [[Hr E]|[(Hr & _ & E)|(Hr & _ & E)]]; rewrite E; split;
      try (intros; congruence); try (intros H; discriminate H).
    intros H. injection H as _ H.
    apply (f_equal sent) in H. rewrite logged_sent in H.
    now apply app_one_neq in H.
Qed.

(** C5.  With a valid configuration, the constructor issues exactly one
    request, the GET of the service root, and no POST.  When the answer
    carries a status other than 200 it raises the ValueError
    "Oh no! You caught Chonkie at a bad time..."; when the status is 200
    it returns the client, configured as asked. *)
Theorem liveness_probe tok size lang key w response :
  truthy key = true \/ truthy (environ w "CHONKIE_API_KEY") = true ->
  (0 < size)%Z ->
  reply w (GET "https://api.chonkie.ai/") = Ok response ->
  sent (snd (__init__ tok size lang key w)) =
  (sent w ++ [GET "https://api.chonkie.ai/"])%list /\
  (forall req,
      In req (sent (snd (__init__ tok size lang key w))) ->
      is_post req = true -> In req (sent w)) /\
  (status_code response <> 200%Z ->
   fst (__init__ tok size lang key w) = Raise service_unavailable) /\
  (status_code response = 200%Z ->
   fst (__init__ tok size lang key w) =
   Ok (mkCodeChunker (resolved_key key w) tok size lang)).
Proof.
  intros Hkey Hsize Hreply.
  assert (Hr : truthy (resolved_key key w) = true).
  { rewrite truthy_resolved. apply orb_true_iff. exact Hkey. }
  destruct (init_cases tok size lang key w)
    as [[H _]|[(_ & Hs & _)|(_ & _ & E)]]; [congruence | lia |].
  rewrite E. unfold after_probe. fold probe in Hreply. rewrite Hreply.
  simpl. repeat split.
  - intros req Hin Hpost. apply in_app_or in Hin as [Hin|[<-|[]]]; auto.
    discriminate Hpost.
  - intros Hne. apply Z.eqb_neq in Hne. now rewrite Hne.
  - intros ->. reflexivity.
Qed.

(** C10.  The constructor checks the key first, then the chunk size,
    and only then probes the service: without a key it raises the
    missing-key error whatever the chunk size, with a key and a chunk
    size that is not positive it raises the chunk-size error, and in
    both cases no request is sent; whenever a request was sent, both
    checks had passed and the request is the probe. *)
Theorem validation_before_probe tok size lang key w :
  (truthy key = false -> truthy (environ w "CHONKIE_API_KEY") = false ->
   __init__ tok size lang key w = (Raise missing_api_key, w)) /\
  (truthy key = true \/ truthy (environ w "CHONKIE_API_KEY") = true ->
   (size <= 0)%Z ->
   __init__ tok size lang key w = (Raise invalid_chunk_size, w)) /\
  (sent (snd (__init__ tok size lang key w)) <> sent w ->
   (truthy key = true \/ truthy (environ w "CHONKIE_API_KEY") = true) /\
   (0 < size)%Z /\
   sent (snd (__init__ tok size lang key w)) =
   (sent w ++ [GET "https://api.chonkie.ai/"])%list).
Proof.
  pose proof (truthy_resolved key w) as Hr.
  destruct (init_cases tok size lang key w)
    as [[H E]|[(H & Hs & E)|(H & Hs & E)]]; rewrite E; simpl;
    rewrite H in Hr; symmetry in Hr.
  - apply orb_false_iff in Hr as [Hk He].
    repeat split; try congruence.
    intros [?|?]; congruence.
  - apply orb_true_iff in Hr.
    repeat split; try congruence; try lia.
    intros Hk He. rewrite Hk, He in Hr. now destruct Hr.
  - apply orb_true_iff in Hr.
    repeat split; auto; try lia.
    intros Hk He. rewrite Hk, He in Hr. now destruct Hr.
Qed.

(** ** [chunk] and [__call__] *)

Lemma Forall2_nth_error {A B : Type} (R : A -> B -> Prop) :
  forall l l', Forall2 R l l' ->
  forall i x, nth_error l i = Some x ->
  exists y, nth_error l' i = Some y /\ R x y.
Proof.
  induction 1 as [|a b l l' Hab _ IH]; intros [|i] x Hx;
    try discriminate.
  - injection Hx as <-. exists b. auto.
  - simpl in Hx. apply IH in Hx. exact Hx.
Qed.

(** A response that maps does so to a result that follows the input. *)
Lemma mapped_follows {CodeChunk : Type}
  (from_dict : pyval -> result CodeChunk) txt response r :
  mapped from_dict txt response = Ok r ->
  exists body, json response = Ok body /\ follows from_dict txt body r.
Proof.
  unfold mapped, follows, map_items, maps_to.
  destruct (json response) as [body|e]; [|discriminate].
  intros H. exists body. split; [reflexivity|].
  destruct txt as [s|l]; destruct (py_iter body) as [items|e];
    try discriminate.
  - destruct (map_result from_dict items) as [chunks|e] eqn:Hm;
      [|discriminate].
    injection H as <-. exists items. split; [reflexivity|].
    now apply map_result_Ok.
  - destruct (map_result _ items) as [chunks|e] eqn:Hm; [|discriminate].
    injection H as <-. exists items. split; [reflexivity|].
    apply map_result_Ok in Hm.
    induction Hm as [|row cs rows chunks Hrow _ IH]; constructor; auto.
    destruct (py_iter row) as [its|e]; [|discriminate].
    exists its. split; [reflexivity|]. now apply map_result_Ok.
Qed.

(** Conversely, a result that follows the input is the one the response
    maps to. *)
Lemma follows_mapped {CodeChunk : Type}
  (from_dict : pyval -> result CodeChunk) txt response body r :
  json response = Ok body -> follows from_dict txt body r ->
  mapped from_dict txt response = Ok r.
Proof.
  unfold mapped, follows, map_items, maps_to. intros -> H.
  destruct txt as [s|l]; destruct r as [chunks|chunks]; try contradiction;
    destruct H as (items & -> & H).
  - now rewrite (Forall2_map_result _ _ _ H).
  - erewrite Forall2_map_result; [reflexivity|].
    induction H as [|row cs rows chunks (its & Hi & Hrow) _ IH];
      constructor; auto.
    rewrite Hi. now apply Forall2_map_result.
Qed.

(** C1 (as the code has it).  A call of [chunk] that returns has sent
    its request, got status 200 and a body that decodes, and its result
    follows the input: for a single string, the flat list of the chunks
    mapped from the elements of the body, one for one and in order; for
    a list of strings, one list of chunks per element of the body, in
    order, each mapped from the elements of that element.  When the
    body is an array, the result is as long as the array: as long as
    the input list exactly when the array is. *)
Theorem chunk_result_shape {CodeChunk : Type}
  (from_dict : pyval -> result CodeChunk) txt st r :
  fst (chunk from_dict txt st) = Ok r ->
  exists response body,
    reply (world st) (chunk_request (self st) txt) = Ok response /\
    status_code response = 200%Z /\
    json response = Ok body /\
    follows from_dict txt body r /\
    (forall s items,
        txt = Str s -> body = PyList items ->
        exists chunks,
          r = Flat chunks /\
          List.length chunks = List.length items /\
          forall i item,
            nth_error items i = Some item ->
            exists c, nth_error chunks i = Some c /\ from_dict item = Ok c) /\
    (forall l rows,
        txt = Lst l -> body = PyList rows ->
        exists chunks,
          r = Batch chunks /\
          List.length chunks = List.length rows /\
          (List.length rows = List.length l ->
           List.length chunks = List.length l) /\
          forall i row,
            nth_error rows i = Some row ->
            exists cs items,
              nth_error chunks i = Some cs /\
              py_iter row = Ok items /\ maps_to from_dict items cs).
Proof.
  rewrite chunk_run. simpl.
  destruct (reply (world st) (chunk_request (self st) txt))
    as [response|e]; [|discriminate].
  destruct (Z.eqb_spec (status_code response) 200) as [H200|_];
    [|discriminate].
  destruct (mapped from_dict txt response) as [r'|e] eqn:Hm;
    [|discriminate].
  intros H. injection H as ->.
  destruct (mapped_follows _ _ _ _ Hm) as (body & Hbody & Hf).
  exists response, body. repeat split; auto.
  - intros s items -> ->. destruct r as [chunks|chunks]; [|contradiction].
    destruct Hf as (items' & Hi & Hmap). injection Hi as <-.
    exists chunks. repeat split.
    + symmetry. exact (Forall2_length Hmap).
    + intros i item Hi. exact (Forall2_nth_error _ _ _ Hmap i item Hi).
  - intros l rows -> ->. destruct r as [chunks|chunks]; [contradiction|].
    destruct Hf as (rows' & Hi & Hmap). injection Hi as <-.
    pose proof (Forall2_length Hmap) as Hlen.
    exists chunks. repeat split; try congruence.
    intros i row Hi.
    destruct (Forall2_nth_error _ _ _ Hmap i row Hi)
      as (cs & Hcs & items & Hit & Hcsmap).
    exists cs, items. auto.
Qed.

(** C2.  Every call of [chunk] sends one request: a POST to
    /v1/chunk/code whose JSON payload has exactly the six keys text,
    tokenizer_or_token_counter, chunk_size, language, lang and
    include_nodes; language and lang both carry the language of the
    client, and include_nodes is false. *)
Theorem chunk_payload {CodeChunk : Type}
  (from_dict : pyval -> result CodeChunk) txt st :
  sent (world (snd (chunk from_dict txt st))) =
  (sent (world st) ++
   [POST "https://api.chonkie.ai/v1/chunk/code"
      (PyDict [ ("text", text_value txt);
                ("tokenizer_or_token_counter",
                 PyStr (tokenizer_or_token_counter (self st)));
                ("chunk_size", PyInt (chunk_size (self st)));
                ("language", PyStr (language (self st)));
                ("lang", PyStr (language (self st)));
                ("include_nodes", PyBool false) ])
      [("Authorization",
        ("Bearer " ++ str_opt (api_key (self st)))%string)]])%list.
Proof. rewrite chunk_run. reflexivity. Qed.

(** C6.  When the answer to the POST carries a status other than 200,
    [chunk] raises the ValueError
    "Error from the Chonkie API: <status> <body text>", which holds the
    status code and the body text as they came; it returns nothing and
    has sent that one request only. *)
Theorem remote_error_surfaced {CodeChunk : Type}
  (from_dict : pyval -> result CodeChunk) txt st response :
  reply (world st) (chunk_request (self st) txt) = Ok response ->
  status_code response <> 200%Z ->
  fst (chunk from_dict txt st) =
  Raise (ValueError ("Error from the Chonkie API: "
                     ++ str_int (status_code response) ++ " "
                     ++ text response)) /\
  contains (str_int (status_code response))
    (exn_str (remote_request_error response)) /\
  contains (text response) (exn_str (remote_request_error response)) /\
  sent (world (snd (chunk from_dict txt st))) =
  (sent (world st) ++ [chunk_request (self st) txt])%list.
Proof.
  intros Hreply Hne. rewrite chunk_run, Hreply. simpl.
  apply Z.eqb_neq in Hne. rewrite Hne. repeat split.
  - exists "Error from the Chonkie API: ", (" " ++ text response).
    reflexivity.
  - exists ("Error from the Chonkie API: "
            ++ str_int (status_code response) ++ " "), "".
    unfold remote_request_error, ValueError, exn_str.
    now rewrite append_nil_r, !append_assoc.
Qed.

(** C7.  When the answer to the POST carries status 200, [chunk]
    returns the whole structure mapped from the body or raises, and
    never returns part of it: if decoding the body, iterating over it
    or over one of its elements, or [from_dict] on a chunk object
    raises [error], [chunk] raises the ValueError
    "Error parsing the response: <error>" with [error] as its cause;
    otherwise it returns the result that follows the input, mapped from
    every element. *)
Theorem parse_failure_wrapped {CodeChunk : Type}
  (from_dict : pyval -> result CodeChunk) txt st response :
  reply (world st) (chunk_request (self st) txt) = Ok response ->
  status_code response = 200%Z ->
  (forall error,
      mapped from_dict txt response = Raise error ->
      fst (chunk from_dict txt st) =
      Raise (ValueError_from
               ("Error parsing the response: " ++ exn_str error) error) /\
      exn_cause (response_parse_error error) = Some error) /\
  (forall error,
      json response = Raise error ->
      mapped from_dict txt response = Raise error) /\
  (forall r,
      mapped from_dict txt response = Ok r ->
      fst (chunk from_dict txt st) = Ok r) /\
  (forall r,
      fst (chunk from_dict txt st) = Ok r <->
      exists body, json response = Ok body /\ follows from_dict txt body r).
Proof.
  intros Hreply H200. rewrite chunk_run, Hreply, H200. simpl.
  split; [|split; [|split]].
  - intros error ->. split; reflexivity.
  - intros error He. unfold mapped. now rewrite He.
  - now intros r ->.
  - intros r. split.
    + intros H.
      destruct (mapped from_dict txt response) as [r'|e] eqn:Hm;
        [|discriminate].
      injection H as <-. now apply mapped_follows.
    + intros (body & Hbody & Hf).
      now rewrite (follows_mapped _ _ _ _ _ Hbody Hf).
Qed.

(** C8.  Calling the client is calling [chunk]: same result or
    exception, same effects. *)
Theorem call_is_chunk {CodeChunk : Type}
  (from_dict : pyval -> result CodeChunk) txt st :
  __call__ from_dict txt st = chunk from_dict txt st.
Proof. reflexivity. Qed.

(** C9.  Whether [chunk] returns or raises, the client is afterwards
    what it was before: its four attributes are unchanged, so the same
    call may be made again and sends the same request. *)
Theorem chunk_preserves_client {CodeChunk : Type}
  (from_dict : pyval -> result CodeChunk) txt st :
  self (snd (chunk from_dict txt st)) = self st /\
  api_key (self (snd (chunk from_dict txt st))) = api_key (self st) /\
  tokenizer_or_token_counter (self (snd (chunk from_dict txt st))) =
  tokenizer_or_token_counter (self st) /\
  chunk_size (self (snd (chunk from_dict txt st))) = chunk_size (self st) /\
  language (self (snd (chunk from_dict txt st))) = language (self st) /\
  chunk_request (self (snd (chunk from_dict txt st))) txt =
  chunk_request (self st) txt.
Proof. rewrite chunk_run. simpl. repeat split. Qed.

(** ** Concrete runs *)

(** A direct run: key from the argument, service up. *)
Example init_sample_run :
  __init__ "gpt2" 512 "auto" (Some "secret")
    (sample_world None 200 (answer_ok (PyList []))) =
  (Ok (mkCodeChunker (Some "secret") "gpt2" 512 "auto"),
   logged probe (sample_world None 200 (answer_ok (PyList [])))).
Proof. reflexivity. Qed.

(** With language "python" the payload carries it under both keys. *)
Example python_payload_run :
  sent (world (snd (chunk Sample.from_dict (Str "def f(): pass")
                      (sample_store (answer_ok (PyList [])))))) =
  [POST "https://api.chonkie.ai/v1/chunk/code"
     (PyDict [ ("text", PyStr "def f(): pass");
               ("tokenizer_or_token_counter", PyStr "gpt2");
               ("chunk_size", PyInt 512);
               ("language", PyStr "python");
               ("lang", PyStr "python");
               ("include_nodes", PyBool false) ])
     [("Authorization", "Bearer secret")]].
Proof. reflexivity. Qed.

(** A chunk object without its token count: [from_dict] raises a
    KeyError, which [chunk] wraps. *)
Example missing_field_run :
  fst (chunk Sample.from_dict (Str "def f(): pass")
         (sample_store
            (answer_ok
               (PyList [PyDict [ ("text", PyStr "def f(): pass");
                                 ("start_index", PyInt 0);
                                 ("end_index", PyInt 13) ]])))) =
  Raise (mkExn "ValueError" "Error parsing the response: 'token_count'"
           (Some (mkExn "KeyError" "'token_count'" None))).
Proof. reflexivity. Qed.

(** A body that does not decode: the decoding error is wrapped. *)
Example malformed_json_run :
  fst (chunk Sample.from_dict (Lst ["a"; "b"])
         (sample_store (answer_text 200 "<html>"))) =
  Raise (mkExn "ValueError"
           "Error parsing the response: Expecting value: line 1 column 1 (char 0)"
           (Some (mkExn "JSONDecodeError"
                    "Expecting value: line 1 column 1 (char 0)" None))).
Proof. reflexivity. Qed.

(** The body text of a sample answer. *)
Example sample_answer_text :
  text (answer_ok (PyList [PyList []; PyDict [("n", PyInt 1)]])) =
  "[[], {" ++ quoted "n" ++ ": 1}]".
Proof. reflexivity. Qed.

(** C1, as stated, fails: for an input of two texts and a well-formed
    answer of one inner array, [chunk] returns a list of length one. *)
Lemma batch_length_is_the_answers :
  fst (chunk Sample.from_dict (Lst ["def f(): pass"; "def g(): pass"])
         (sample_store (mkResponse 200 "[[]]" (Ok (PyList [PyList []]))))) =
  Ok (Batch [[]]) /\
  List.length ([[]] : list (list Sample.CodeChunk)) <>
  List.length ["def f(): pass"; "def g(): pass"].
Proof. split; [reflexivity | discriminate]. Qed.

(** C7, as stated, fails: for a single text and a 200 answer whose body
    is a JSON object where an array of chunk objects is expected,
    nothing raises and [chunk] returns the empty list. *)
Lemma object_body_is_accepted :
  reply (world (sample_store (mkResponse 200 "{}" (Ok (PyDict [])))))
    (chunk_request sample_client (Str "def f(): pass")) =
  Ok (mkResponse 200 "{}" (Ok (PyDict []))) /\
  fst (chunk Sample.from_dict (Str "def f(): pass")
         (sample_store (mkResponse 200 "{}" (Ok (PyDict []))))) =
  Ok (Flat []).
Proof. split; reflexivity. Qed.

(** ** Instances of the theorems *)

Lemma chunk_result_shape_batch :
  fst (chunk Sample.from_dict (Lst ["def f(): pass"; ""])
         (sample_store
            (answer_ok
               (PyList [PyList [sample_object "def f(): pass" 0 13 5];
                        PyList []])))) =
  Ok (Batch [[Sample.mkCodeChunk "def f(): pass" 0 13 5]; []]) /\
  exists response body,
    reply (world (sample_store
                    (answer_ok
                       (PyList [PyList [sample_object "def f(): pass" 0 13 5];
                                PyList []]))))
      (chunk_request sample_client (Lst ["def f(): pass"; ""])) =
    Ok response /\
    status_code response = 200%Z /\
    json response = Ok body /\
    follows Sample.from_dict (Lst ["def f(): pass"; ""]) body
      (Batch [[Sample.mkCodeChunk "def f(): pass" 0 13 5]; []]).
Proof.
  split; [reflexivity|].
  destruct (chunk_result_shape Sample.from_dict
              (Lst ["def f(): pass"; ""])
              (sample_store
                 (answer_ok
                    (PyList [PyList [sample_object "def f(): pass" 0 13 5];
                             PyList []])))
              (Batch [[Sample.mkCodeChunk "def f(): pass" 0 13 5]; []])
              eq_refl)
    as (response & body & H1 & H2 & H3 & H4 & _).
  exists response, body. auto.
Defined.

Lemma chunk_size_check_zero :
  truthy (Some "secret") = true /\
  (0 <= 0)%Z /\
  __init__ "gpt2" 0 "auto" (Some "secret")
    (sample_world None 200 (answer_ok (PyList []))) =
  (Raise (ValueError "Chunk size must be greater than 0."),
   sample_world None 200 (answer_ok (PyList []))).
Proof.
  split; [reflexivity|]. split; [lia|].
  apply (proj1 (chunk_size_check "gpt2" 0 "auto" (Some "secret")
                  (sample_world None 200 (answer_ok (PyList [])))
                  (or_introl eq_refl))).
  lia.
Defined.

Lemma api_key_resolution_paths :
  __init__ "gpt2" 512 "auto" (Some "secret")
    (sample_world (Some "from-env") 200 (answer_ok (PyList []))) =
  (Ok (mkCodeChunker (Some "secret") "gpt2" 512 "auto"),
   logged (GET "https://api.chonkie.ai/")
     (sample_world (Some "from-env") 200 (answer_ok (PyList []))))
  /\
  __init__ "gpt2" 512 "auto" (Some "")
    (sample_world (Some "from-env") 200 (answer_ok (PyList []))) =
  (Ok (mkCodeChunker (Some "from-env") "gpt2" 512 "auto"),
   logged (GET "https://api.chonkie.ai/")
     (sample_world (Some "from-env") 200 (answer_ok (PyList []))))
  /\
  __init__ "gpt2" 512 "auto" None
    (sample_world (Some "") 200 (answer_ok (PyList []))) =
  (Raise missing_api_key,
   sample_world (Some "") 200 (answer_ok (PyList []))).
Proof.
  split; [|split].
  - apply (proj1 (proj2 (proj2
             (api_key_resolution "gpt2" 512 "auto" (Some "secret")
                (sample_world (Some "from-env") 200
                   (answer_ok (PyList []))))))
             "secret" (answer_text 200 "") (or_introl eq_refl));
      [discriminate | lia | reflexivity | reflexivity].
  - apply (proj1 (proj2 (proj2
             (api_key_resolution "gpt2" 512 "auto" (Some "")
                (sample_world (Some "from-env") 200
                   (answer_ok (PyList []))))))
             "from-env" (answer_text 200 "")
             (or_intror (conj (or_intror eq_refl) eq_refl)));
      [discriminate | lia | reflexivity | reflexivity].
  - apply (proj2 (proj2 (proj2
             (api_key_resolution "gpt2" 512 "auto" None
                (sample_world (Some "") 200 (answer_ok (PyList [])))))));
      split; [left | right]; reflexivity.
Defined.

Lemma liveness_probe_down :
  reply (sample_world None 503 (answer_ok (PyList [])))
    (GET "https://api.chonkie.ai/") =
  Ok (answer_text 503 "") /\
  fst (__init__ "gpt2" 512 "auto" (Some "secret")
         (sample_world None 503 (answer_ok (PyList [])))) =
  Raise service_unavailable /\
  sent (snd (__init__ "gpt2" 512 "auto" (Some "secret")
               (sample_world None 503 (answer_ok (PyList []))))) =
  [GET "https://api.chonkie.ai/"].
Proof.
  split; [reflexivity|].
  destruct (liveness_probe "gpt2" 512 "auto" (Some "secret")
              (sample_world None 503 (answer_ok (PyList [])))
              (answer_text 503 "")
              (or_introl eq_refl) eq_refl eq_refl)
    as (Hsent & _ & Hdown & _).
  split; [apply Hdown; discriminate | exact Hsent].
Defined.

Lemma remote_error_surfaced_500 :
  reply (world (sample_store (answer_text 500 "server error")))
    (chunk_request sample_client (Str "def f(): pass")) =
  Ok (answer_text 500 "server error") /\
  fst (chunk Sample.from_dict (Str "def f(): pass")
         (sample_store (answer_text 500 "server error"))) =
  Raise (ValueError "Error from the Chonkie API: 500 server error") /\
  contains "500" "Error from the Chonkie API: 500 server error" /\
  contains "server error" "Error from the Chonkie API: 500 server error".
Proof.
  split; [reflexivity|].
  destruct (remote_error_surfaced Sample.from_dict (Str "def f(): pass")
              (sample_store (answer_text 500 "server error"))
              (answer_text 500 "server error") eq_refl)
    as (Hraise & Hcode & Hbody & _); [discriminate|].
  repeat split; assumption.
Defined.

Lemma parse_failure_wrapped_missing_field :
  reply (world (sample_store
                  (answer_ok (PyList [PyDict [("text", PyStr "x")]]))))
    (chunk_request sample_client (Str "x")) =
  Ok (answer_ok (PyList [PyDict [("text", PyStr "x")]])) /\
  mapped Sample.from_dict (Str "x")
    (answer_ok (PyList [PyDict [("text", PyStr "x")]])) =
  Raise (mkExn "KeyError" "'start_index'" None) /\
  fst (chunk Sample.from_dict (Str "x")
         (sample_store (answer_ok (PyList [PyDict [("text", PyStr "x")]]))))
  =
  Raise (ValueError_from "Error parsing the response: 'start_index'"
           (mkExn "KeyError" "'start_index'" None)).
Proof.
  split; [reflexivity|]. split; [reflexivity|].
  apply (proj1 (proj1 (parse_failure_wrapped Sample.from_dict (Str "x")
                  (sample_store
                     (answer_ok (PyList [PyDict [("text", PyStr "x")]])))
                  (answer_ok (PyList [PyDict [("text", PyStr "x")]]))
                  eq_refl eq_refl)
           (mkExn "KeyError" "'start_index'" None) eq_refl)).
Defined.

Lemma validation_before_probe_both_invalid :
  __init__ "gpt2" 0 "auto" None
    (sample_world (Some "") 200 (answer_ok (PyList []))) =
  (Raise missing_api_key,
   sample_world (Some "") 200 (answer_ok (PyList []))) /\
  sent (snd (__init__ "gpt2" 0 "auto" None
               (sample_world (Some "") 200 (answer_ok (PyList []))))) = [].
Proof.
  assert (H : __init__ "gpt2" 0 "auto" None
                (sample_world (Some "") 200 (answer_ok (PyList []))) =
              (Raise missing_api_key,
               sample_world (Some "") 200 (answer_ok (PyList [])))).
  { apply (proj1 (validation_before_probe "gpt2" 0 "auto" None
                    (sample_world (Some "") 200 (answer_ok (PyList [])))));
      reflexivity. }
  split; [exact H | now rewrite H].
Defined.

(** ** Further properties of the constructor *)

(** X1.  When the probe itself fails in transport ([requests.get]
    raises), the constructor lets that exception through as it is, after
    the one GET. *)
Theorem init_transport_error tok size lang key w e :
  truthy key = true \/ truthy (environ w "CHONKIE_API_KEY") = true ->
  (0 < size)%Z ->
  reply w (GET "https://api.chonkie.ai/") = Raise e ->
  __init__ tok size lang key w =
  (Raise e, logged (GET "https://api.chonkie.ai/") w).
Proof.
  intros Hkey Hsize Hreply.
  assert (Hr : truthy (resolved_key key w) = true).
  { rewrite truthy_resolved. apply orb_true_iff. exact Hkey. }
  destruct (init_cases tok size lang key w)
    as [[H _]|[(_ & Hs & _)|(_ & _ & E)]]; [congruence | lia |].
  rewrite E. unfold after_probe. fold probe in Hreply. now rewrite Hreply.
Qed.

(** X2.  A constructor that returns has kept its invariants: the client
    holds the arguments as given, its key is a non-empty string, its
    chunk size is positive, and the only request sent was the probe,
    answered with status 200. *)
Theorem init_success_invariant tok size lang key w obj w' :
  __init__ tok size lang key w = (Ok obj, w') ->
  tokenizer_or_token_counter obj = tok /\
  chunk_size obj = size /\
  language obj = lang /\
  (exists k, api_key obj = Some k /\ k <> "") /\
  (0 < chunk_size obj)%Z /\
  sent w' = (sent w ++ [GET "https://api.chonkie.ai/"])%list /\
  environ w' = environ w /\
  exists response,
    reply w (GET "https://api.chonkie.ai/") = Ok response /\
    status_code response = 200%Z.
Proof.
  intros H.
  destruct (init_cases tok size lang key w)
    as [[_ E]|[(_ & _ & E)|(Hr & Hs & E)]];
    rewrite E in H; try discriminate.
  unfold after_probe in H. injection H as H <-.
  fold probe.
  destruct (reply w probe) as [response|e]; [|discriminate].
  destruct (Z.eqb_spec (status_code response) 200) as [H200|_];
    [|discriminate].
  injection H as <-. simpl. repeat split; auto.
  - destruct (resolved_key key w) as [k|]; [|discriminate].
    exists k. split; [reflexivity|]. now apply truthy_Some.
  - exists response. auto.
Qed.

(** X3.  Whatever the constructor raises is one of its three
    ValueErrors or the transport error of the probe; the first two are
    raised before anything is sent. *)
Theorem init_raises_only tok size lang key w e w' :
  __init__ tok size lang key w = (Raise e, w') ->
  (e = missing_api_key /\ w' = w) \/
  (e = invalid_chunk_size /\ w' = w) \/
  (w' = logged (GET "https://api.chonkie.ai/") w /\
   (reply w (GET "https://api.chonkie.ai/") = Raise e \/
    e = service_unavailable /\
    exists response,
      reply w (GET "https://api.chonkie.ai/") = Ok response /\
      status_code response <> 200%Z)).
Proof.
  intros H.
  destruct (init_cases tok size lang key w)
    as [[_ E]|[(_ & _ & E)|(_ & _ & E)]]; rewrite E in H.
  - injection H as <- <-. now left.
  - injection H as <- <-. right. now left.
  - right. right. unfold after_probe in H. injection H as H <-.
    fold probe. split; [reflexivity|].
    destruct (reply w probe) as [response|e'].
    + destruct (Z.eqb_spec (status_code response) 200) as [|Hne];
        [discriminate|].
      injection H as <-. right. split; [reflexivity|].
      exists response. auto.
    + injection H as <-. now left.
Qed.

(** ** Further properties of [chunk] *)

Lemma map_result_first_failure {A B : Type} (f : A -> result B) bad e :
  f bad = Raise e ->
  forall good rest,
    Forall (fun x => exists y, f x = Ok y) good ->
    map_result f (good ++ bad :: rest) = Raise e.
Proof.
  intros Hbad good rest Hgood.
  induction Hgood as [|x good (y & Hx) _ IH]; simpl.
  - now rewrite Hbad.
  - now rewrite Hx, IH.
Qed.

(** X5.  When the POST itself fails in transport ([requests.post]
    raises), [chunk] lets that exception through as it is: it is raised
    before the try block and is not turned into a parse error. *)
Theorem chunk_transport_error {CodeChunk : Type}
  (from_dict : pyval -> result CodeChunk) txt st e :
  reply (world st) (chunk_request (self st) txt) = Raise e ->
  chunk from_dict txt st =
  (Raise e, mkStore (self st) (logged (chunk_request (self st) txt) (world st))).
Proof. intros H. now rewrite chunk_run, H. Qed.

(** X6.  Whatever [chunk] raises is the transport error of its POST, or
    a ValueError of its own: the remote-request error of a non-200
    answer, or the parse error wrapping a cause.  No TypeError, KeyError
    or decoding error of the mapping ever leaves [chunk] unwrapped. *)
Theorem chunk_raises_only {CodeChunk : Type}
  (from_dict : pyval -> result CodeChunk) txt st e :
  fst (chunk from_dict txt st) = Raise e ->
  reply (world st) (chunk_request (self st) txt) = Raise e \/
  exn_class e = "ValueError" /\
  exists response,
    reply (world st) (chunk_request (self st) txt) = Ok response /\
    (status_code response <> 200%Z /\ e = remote_request_error response /\
     exn_cause e = None
     \/
     status_code response = 200%Z /\
     exists cause,
       mapped from_dict txt response = Raise cause /\
       e = response_parse_error cause /\ exn_cause e = Some cause).
Proof.
  rewrite chunk_run. simpl.
  destruct (reply (world st) (chunk_request (self st) txt))
    as [response|e']; intros H.
  - right.
    destruct (Z.eqb_spec (status_code response) 200) as [H200|Hne].
    + destruct (mapped from_dict txt response) as [r|cause] eqn:Hm;
        [discriminate|].
      injection H as <-. split; [reflexivity|].
      exists response. split; [reflexivity|]. right.
      split; [assumption|]. exists cause. auto.
    + injection H as <-. split; [reflexivity|].
      exists response. split; [reflexivity|]. left. auto.
  - left. congruence.
Qed.

(** X7.  Single text: when the body is an array whose first chunk
    object that [from_dict] rejects is [bad], [chunk] raises the parse
    error of that rejection, however many objects before it were good
    and whatever follows it. *)
Theorem first_bad_object_decides {CodeChunk : Type}
  (from_dict : pyval -> result CodeChunk) s st response good bad rest e :
  reply (world st) (chunk_request (self st) (Str s)) = Ok response ->
  status_code response = 200%Z ->
  json response = Ok (PyList (good ++ bad :: rest)) ->
  Forall (fun item => exists c, from_dict item = Ok c) good ->
  from_dict bad = Raise e ->
  fst (chunk from_dict (Str s) st) = Raise (response_parse_error e).
Proof.
  intros Hreply H200 Hjson Hgood Hbad.
  rewrite chunk_run, Hreply, H200. simpl.
  unfold mapped, map_items. rewrite Hjson. simpl.
  now rewrite (map_result_first_failure from_dict bad e Hbad good rest Hgood).
Qed.

(** X8.  List of texts: when the body is an array whose first row that
    fails to map (it cannot be iterated, or holds an object [from_dict]
    rejects) is [bad], [chunk] raises the parse error of that failure
    and returns none of the rows mapped before it. *)
Theorem first_bad_row_decides {CodeChunk : Type}
  (from_dict : pyval -> result CodeChunk) l st response good bad rest e :
  reply (world st) (chunk_request (self st) (Lst l)) = Ok response ->
  status_code response = 200%Z ->
  json response = Ok (PyList (good ++ bad :: rest)) ->
  Forall (fun row =>
            exists items cs,
              py_iter row = Ok items /\ maps_to from_dict items cs) good ->
  map_items from_dict bad = Raise e ->
  fst (chunk from_dict (Lst l) st) = Raise (response_parse_error e).
Proof.
  intros Hreply H200 Hjson Hgood Hbad.
  rewrite chunk_run, Hreply, H200. simpl.
  unfold mapped. rewrite Hjson. simpl.
  rewrite (map_result_first_failure (map_items from_dict) bad e Hbad good rest);
    [reflexivity|].
  eapply Forall_impl; [|exact Hgood].
  intros row (items & cs & Hi & Hm). exists cs.
  unfold map_items. rewrite Hi. now apply Forall2_map_result.
Qed.

(** X9.  What [chunk] makes of an answer depends on whether its input is
    a string or a list, and on nothing else: not on the texts, nor on
    how many there are, nor on the client. *)
Theorem outcome_depends_on_kind_only {CodeChunk : Type}
  (from_dict : pyval -> result CodeChunk) txt1 txt2 st1 st2 response :
  is_list txt1 = is_list txt2 ->
  reply (world st1) (chunk_request (self st1) txt1) = Ok response ->
  reply (world st2) (chunk_request (self st2) txt2) = Ok response ->
  fst (chunk from_dict txt1 st1) = fst (chunk from_dict txt2 st2).
Proof.
  intros Hkind H1 H2. rewrite !chunk_run, H1, H2. simpl.
  destruct txt1, txt2; try discriminate; reflexivity.
Qed.

(** X10.  A batch is mapped row by row as a single answer is: when a
    call on a list returns, its i-th list of chunks is what a call on a
    single string returns for an answer whose body is the i-th row. *)
Theorem batch_row_is_single_answer {CodeChunk : Type}
  (from_dict : pyval -> result CodeChunk)
  l st response rows chunks i row s st' response' :
  reply (world st) (chunk_request (self st) (Lst l)) = Ok response ->
  json response = Ok (PyList rows) ->
  fst (chunk from_dict (Lst l) st) = Ok (Batch chunks) ->
  nth_error rows i = Some row ->
  reply (world st') (chunk_request (self st') (Str s)) = Ok response' ->
  status_code response' = 200%Z ->
  json response' = Ok row ->
  exists cs,
    nth_error chunks i = Some cs /\
    fst (chunk from_dict (Str s) st') = Ok (Flat cs).
Proof.
  intros Hreply Hjson Hres Hrow Hreply' H200' Hjson'.
  rewrite chunk_run, Hreply in Hres. simpl in Hres.
  destruct (status_code response =? 200)%Z; [|discriminate].
  unfold mapped in Hres. rewrite Hjson in Hres. simpl in Hres.
  destruct (map_result (map_items from_dict) rows) as [css|e] eqn:Hm;
    [|discriminate].
  injection Hres as <-.
  apply map_result_Ok in Hm.
  destruct (Forall2_nth_error _ _ _ Hm i row Hrow) as (cs & Hcs & Hmap).
  exists cs. split; [assumption|].
  rewrite chunk_run, Hreply', H200'. simpl.
  unfold mapped. rewrite Hjson'. now rewrite Hmap.
Qed.

(** X11.  A body that is not iterable (null, a boolean, a number) makes
    [chunk] raise the parse error wrapping Python's TypeError
    "'<type>' object is not iterable", for either kind of input and
    whatever [from_dict] is. *)
Theorem non_iterable_body_rejected {CodeChunk : Type}
  (from_dict : pyval -> result CodeChunk) txt st response body :
  reply (world st) (chunk_request (self st) txt) = Ok response ->
  status_code response = 200%Z ->
  json response = Ok body ->
  (forall items, py_iter body <> Ok items) ->
  fst (chunk from_dict txt st) =
  Raise (response_parse_error
           (TypeError ("'" ++ type_name body ++ "' object is not iterable"))).
Proof.
  intros Hreply H200 Hjson Hiter.
  rewrite chunk_run, Hreply, H200. simpl.
  unfold mapped, map_items. rewrite Hjson.
  destruct body; simpl;
    try (exfalso; eapply Hiter; reflexivity);
    destruct txt; reflexivity.
Qed.

(** X12.  Calls made one after the other, whatever each returns or
    raises, send one POST each, in order and nothing else (no probe is
    repeated), and leave the client as it was. *)
Theorem calls_send_one_post_each {CodeChunk : Type}
  (from_dict : pyval -> result CodeChunk) :
  forall texts st,
    sent (world (snd (calls from_dict texts st))) =
    (sent (world st) ++ map (chunk_request (self st)) texts)%list /\
    self (snd (calls from_dict texts st)) = self st /\
    List.length (fst (calls from_dict texts st)) = List.length texts /\
    forallb is_post (map (chunk_request (self st)) texts) = true.
Proof.
  induction texts as [|t rest IH]; intros st; simpl.
  - rewrite app_nil_r. auto.
  - rewrite chunk_run.
    set (st1 := mkStore (self st) (logged (chunk_request (self st) t) (world st))).
    destruct (IH st1) as (Hsent & Hself & Hlen & Hpost).
    destruct (calls from_dict rest st1) as [rs st2]. simpl in *.
    rewrite Hsent, Hself, Hlen, <- app_assoc. auto.
Qed.

(** ** What the request and the error message carry *)

Lemma map_PyStr_inj (l1 l2 : list string) :
  map PyStr l1 = map PyStr l2 -> l1 = l2.
Proof.
  revert l2. induction l1 as [|x l1 IH]; intros [|y l2] H;
    try discriminate; [reflexivity|].
  simpl in H. injection H as -> H. f_equal. auto.
Qed.

Lemma text_value_inj (t1 t2 : Text) : text_value t1 = text_value t2 -> t1 = t2.
Proof.
  destruct t1, t2; simpl; intros H; try discriminate.
  - now injection H as ->.
  - injection H as H. f_equal. now apply map_PyStr_inj.
Qed.

Lemma digits_no_space (d : Decimal.uint) :
  no_space (NilEmpty.string_of_uint d) = true.
Proof. induction d; simpl; auto. Qed.

Lemma str_int_no_space (n : Z) : no_space (str_int n) = true.
Proof.
  unfold str_int. destruct n as [|p|p]; simpl; [reflexivity| |];
    destruct (Pos.to_uint p) eqn:Hp; simpl; try reflexivity;
    rewrite <- ?Hp; try apply digits_no_space;
    change (no_space (NilEmpty.string_of_uint d) = true);
    apply digits_no_space.
Qed.

Lemma str_int_inj (a b : Z) : str_int a = str_int b -> a = b.
Proof.
  unfold str_int. intros H.
  assert (Hnn : forall n, Z.to_int n <> Decimal.Pos Decimal.Nil /\
                          Z.to_int n <> Decimal.Neg Decimal.Nil).
  { intros [|p|p]; simpl; split; try discriminate;
      intros E; injection E as E;
      exact (DecimalPos.Unsigned.to_uint_nonnil p E). }
  apply (f_equal NilZero.int_of_string) in H.
  rewrite !NilZero.isi in H by apply Hnn.
  injection H as H. now apply DecimalZ.to_int_inj.
Qed.

(** Two texts with a space after a space-free head agree only if the
    heads and the tails do. *)
Lemma split_at_first_space (a b x y : string) :
  no_space a = true -> no_space b = true ->
  a ++ String " " x = b ++ String " " y -> a = b /\ x = y.
Proof.
  revert b. induction a as [|c a IH]; intros [|c' b] Ha Hb H; simpl in *.
  - injection H as ->. auto.
  - injection H as <- _. discriminate Hb.
  - injection H as -> _. discriminate Ha.
  - injection H as -> H.
    apply andb_true_iff in Ha as [_ Ha]. apply andb_true_iff in Hb as [_ Hb].
    destruct (IH b Ha Hb H) as [-> ->]. auto.
Qed.

(** X13.  The remote-request error tells the status code and the body
    text apart: two failed calls raise the same error only if their
    answers had the same status and the same body text. *)
Theorem remote_error_determines_answer {CodeChunk : Type}
  (from_dict : pyval -> result CodeChunk) txt1 txt2 st1 st2 r1 r2 :
  reply (world st1) (chunk_request (self st1) txt1) = Ok r1 ->
  reply (world st2) (chunk_request (self st2) txt2) = Ok r2 ->
  status_code r1 <> 200%Z -> status_code r2 <> 200%Z ->
  fst (chunk from_dict txt1 st1) = fst (chunk from_dict txt2 st2) ->
  status_code r1 = status_code r2 /\ text r1 = text r2.
Proof.
  intros H1 H2 Hn1 Hn2. rewrite !chunk_run, H1, H2. simpl.
  apply Z.eqb_neq in Hn1, Hn2. rewrite Hn1, Hn2.
  unfold remote_request_error, ValueError. intros H.
  injection H as H.
  apply split_at_first_space in H as [Hs Ht];
    try apply str_int_no_space.
  split; [now apply str_int_inj | assumption].
Qed.

(** X14.  The request keeps the input and the configuration apart: two
    calls send the same request only for the same input (same kind, same
    texts in the same order), the same tokenizer, chunk size and
    language, and the same rendering of the key. *)
Theorem request_determines_call {CodeChunk : Type}
  (from_dict : pyval -> result CodeChunk) txt1 txt2 st1 st2 :
  sent (world st1) = sent (world st2) ->
  sent (world (snd (chunk from_dict txt1 st1))) =
  sent (world (snd (chunk from_dict txt2 st2))) ->
  txt1 = txt2 /\
  tokenizer_or_token_counter (self st1) = tokenizer_or_token_counter (self st2)
  /\ chunk_size (self st1) = chunk_size (self st2)
  /\ language (self st1) = language (self st2)
  /\ str_opt (api_key (self st1)) = str_opt (api_key (self st2)).
Proof.
  intros Hlog. rewrite !chunk_run. simpl. rewrite Hlog. intros H.
  apply app_inv_head in H. injection H as Ht Htok Hsize Hlang _ Hkey.
  apply text_value_inj in Ht. auto.
Qed.

(** X15.  Construction and call compose: the first call on a freshly
    constructed client sends, after the probe, a POST that carries the
    constructor's tokenizer, chunk size and language and the resolved,
    non-empty key as bearer token. *)
Theorem construct_then_chunk {CodeChunk : Type}
  (from_dict : pyval -> result CodeChunk) tok size lang key w obj w' txt :
  __init__ tok size lang key w = (Ok obj, w') ->
  exists k,
    resolved_key key w = Some k /\ k <> "" /\
    sent (world (snd (chunk from_dict txt (mkStore obj w')))) =
    (sent w ++
     [GET "https://api.chonkie.ai/";
      POST "https://api.chonkie.ai/v1/chunk/code"
        (PyDict [ ("text", text_value txt);
                  ("tokenizer_or_token_counter", PyStr tok);
                  ("chunk_size", PyInt size);
                  ("language", PyStr lang);
                  ("lang", PyStr lang);
                  ("include_nodes", PyBool false) ])
        [("Authorization", ("Bearer " ++ k)%string)]])%list.
Proof.
  intros H.
  destruct (init_cases tok size lang key w)
    as [[_ E]|[(_ & _ & E)|(Hr & _ & E)]];
    rewrite E in H; try discriminate.
  unfold after_probe in H. injection H as H <-.
  destruct (reply w probe) as [response|e]; [|discriminate].
  destruct (status_code response =? 200)%Z; [|discriminate].
  injection H as <-.
  destruct (resolved_key key w) as [k|] eqn:Hk; [|discriminate].
  exists k. split; [reflexivity|]. split; [now apply truthy_Some|].
  rewrite chunk_run. simpl. now rewrite <- app_assoc.
Qed.

(** ** Instances of the further properties *)

Lemma init_transport_error_offline :
  reply offline_world (GET "https://api.chonkie.ai/") =
  Raise (mkExn "ConnectionError" "Max retries exceeded with url" None) /\
  __init__ "gpt2" 512 "auto" (Some "secret") offline_world =
  (Raise (mkExn "ConnectionError" "Max retries exceeded with url" None),
   logged (GET "https://api.chonkie.ai/") offline_world).
Proof.
  split; [reflexivity|].
  apply (init_transport_error "gpt2" 512 "auto" (Some "secret") offline_world);
    [left; reflexivity | lia | reflexivity].
Defined.

Lemma init_success_invariant_sample :
  __init__ "gpt2" 512 "auto" None
    (sample_world (Some "from-env") 200 (answer_ok (PyList []))) =
  (Ok (mkCodeChunker (Some "from-env") "gpt2" 512 "auto"),
   logged probe (sample_world (Some "from-env") 200 (answer_ok (PyList []))))
  /\
  (0 < chunk_size (mkCodeChunker (Some "from-env") "gpt2" 512 "auto"))%Z.
Proof.
  split; [reflexivity|].
  apply (init_success_invariant "gpt2" 512 "auto" None
           (sample_world (Some "from-env") 200 (answer_ok (PyList [])))
           _ _ eq_refl).
Defined.

Lemma init_raises_only_down :
  __init__ "gpt2" 512 "auto" (Some "secret")
    (sample_world None 503 (answer_ok (PyList []))) =
  (Raise service_unavailable,
   logged probe (sample_world None 503 (answer_ok (PyList [])))) /\
  ((service_unavailable = missing_api_key /\
    logged probe (sample_world None 503 (answer_ok (PyList []))) =
    sample_world None 503 (answer_ok (PyList []))) \/
   (service_unavailable = invalid_chunk_size /\
    logged probe (sample_world None 503 (answer_ok (PyList []))) =
    sample_world None 503 (answer_ok (PyList []))) \/
   (logged probe (sample_world None 503 (answer_ok (PyList []))) =
    logged (GET "https://api.chonkie.ai/")
      (sample_world None 503 (answer_ok (PyList []))) /\
    (reply (sample_world None 503 (answer_ok (PyList [])))
       (GET "https://api.chonkie.ai/") = Raise service_unavailable \/
     service_unavailable = service_unavailable /\
     exists response,
       reply (sample_world None 503 (answer_ok (PyList [])))
         (GET "https://api.chonkie.ai/") = Ok response /\
       status_code response <> 200%Z))).
Proof.
  split; [reflexivity|].
  apply (init_raises_only "gpt2" 512 "auto" (Some "secret")
           (sample_world None 503 (answer_ok (PyList []))) _ _ eq_refl).
Defined.

Lemma chunk_transport_error_offline :
  reply offline_world (chunk_request sample_client (Str "def f(): pass")) =
  Raise (mkExn "ConnectionError" "Max retries exceeded with url" None) /\
  chunk Sample.from_dict (Str "def f(): pass")
    (mkStore sample_client offline_world) =
  (Raise (mkExn "ConnectionError" "Max retries exceeded with url" None),
   mkStore sample_client
     (logged (chunk_request sample_client (Str "def f(): pass"))
        offline_world)).
Proof.
  split; [reflexivity|].
  apply (chunk_transport_error Sample.from_dict (Str "def f(): pass")
           (mkStore sample_client offline_world) _ eq_refl).
Defined.

Lemma chunk_raises_only_parse :
  fst (chunk Sample.from_dict (Str "x")
         (sample_store (answer_ok (PyList [PyInt 7])))) =
  Raise (response_parse_error (TypeError "expected dict, got int")) /\
  exn_class (response_parse_error (TypeError "expected dict, got int")) =
  "ValueError".
Proof.
  split; [reflexivity|].
  destruct (chunk_raises_only Sample.from_dict (Str "x")
              (sample_store (answer_ok (PyList [PyInt 7])))
              (response_parse_error (TypeError "expected dict, got int"))
              eq_refl) as [H|[H _]]; [discriminate H | exact H].
Defined.

Lemma first_bad_object_decides_sample :
  Sample.from_dict (PyInt 7) = Raise (TypeError "expected dict, got int") /\
  fst (chunk Sample.from_dict (Str "x")
         (sample_store
            (answer_ok (PyList [sample_object "a" 0 1 1; PyInt 7; PyNone]))))
  = Raise (response_parse_error (TypeError "expected dict, got int")).
Proof.
  split; [reflexivity|].
  apply (first_bad_object_decides Sample.from_dict "x"
           (sample_store
              (answer_ok (PyList [sample_object "a" 0 1 1; PyInt 7; PyNone])))
           (answer_ok (PyList [sample_object "a" 0 1 1; PyInt 7; PyNone]))
           [sample_object "a" 0 1 1] (PyInt 7) [PyNone]
           (TypeError "expected dict, got int")
           eq_refl eq_refl eq_refl);
    [|reflexivity].
  constructor; [|constructor].
  exists (Sample.mkCodeChunk "a" 0 1 1). reflexivity.
Defined.

Lemma first_bad_row_decides_sample :
  map_items Sample.from_dict PyNone =
  Raise (TypeError "'NoneType' object is not iterable") /\
  fst (chunk Sample.from_dict (Lst ["a"; "b"])
         (sample_store
            (answer_ok (PyList [PyList [sample_object "a" 0 1 1]; PyNone]))))
  = Raise (response_parse_error
             (TypeError "'NoneType' object is not iterable")).
Proof.
  split; [reflexivity|].
  apply (first_bad_row_decides Sample.from_dict ["a"; "b"]
           (sample_store
              (answer_ok (PyList [PyList [sample_object "a" 0 1 1]; PyNone])))
           (answer_ok (PyList [PyList [sample_object "a" 0 1 1]; PyNone]))
           [PyList [sample_object "a" 0 1 1]] PyNone []
           (TypeError "'NoneType' object is not iterable")
           eq_refl eq_refl eq_refl);
    [|reflexivity].
  constructor; [|constructor].
  exists [sample_object "a" 0 1 1], [Sample.mkCodeChunk "a" 0 1 1].
  split; [reflexivity|]. constructor; [reflexivity | constructor].
Defined.

Lemma outcome_depends_on_kind_only_sample :
  is_list (Lst ["a"; "b"; "c"]) = is_list (Lst []) /\
  fst (chunk Sample.from_dict (Lst ["a"; "b"; "c"])
         (sample_store (answer_ok (PyList [PyList []])))) =
  fst (chunk Sample.from_dict (Lst [])
         (sample_store (answer_ok (PyList [PyList []])))).
Proof.
  split; [reflexivity|].
  apply (outcome_depends_on_kind_only Sample.from_dict
           (Lst ["a"; "b"; "c"]) (Lst [])
           (sample_store (answer_ok (PyList [PyList []])))
           (sample_store (answer_ok (PyList [PyList []])))
           (answer_ok (PyList [PyList []])) eq_refl eq_refl eq_refl).
Defined.

Lemma batch_row_is_single_answer_sample :
  fst (chunk Sample.from_dict (Lst ["a"; "b"])
         (sample_store
            (answer_ok (PyList [PyList []; PyList [sample_object "b" 0 1 1]]))))
  = Ok (Batch [[]; [Sample.mkCodeChunk "b" 0 1 1]]) /\
  exists cs,
    nth_error [[]; [Sample.mkCodeChunk "b" 0 1 1]] 1 = Some cs /\
    fst (chunk Sample.from_dict (Str "b")
           (sample_store (answer_ok (PyList [sample_object "b" 0 1 1])))) =
    Ok (Flat cs).
Proof.
  split; [reflexivity|].
  apply (batch_row_is_single_answer Sample.from_dict ["a"; "b"]
           (sample_store
              (answer_ok
                 (PyList [PyList []; PyList [sample_object "b" 0 1 1]])))
           (answer_ok (PyList [PyList []; PyList [sample_object "b" 0 1 1]]))
           [PyList []; PyList [sample_object "b" 0 1 1]]
           [[]; [Sample.mkCodeChunk "b" 0 1 1]] 1
           (PyList [sample_object "b" 0 1 1]) "b"
           (sample_store (answer_ok (PyList [sample_object "b" 0 1 1])))
           (answer_ok (PyList [sample_object "b" 0 1 1]))
           eq_refl eq_refl eq_refl eq_refl eq_refl eq_refl eq_refl).
Defined.

Lemma non_iterable_body_rejected_null :
  (forall items, py_iter PyNone <> Ok items) /\
  fst (chunk Sample.from_dict (Str "x") (sample_store (answer_ok PyNone))) =
  Raise (response_parse_error
           (TypeError "'NoneType' object is not iterable")).
Proof.
  split; [intros items; discriminate|].
  apply (non_iterable_body_rejected Sample.from_dict (Str "x")
           (sample_store (answer_ok PyNone)) (answer_ok PyNone) PyNone
           eq_refl eq_refl eq_refl).
  intros items; discriminate.
Defined.

Lemma remote_error_determines_answer_sample :
  fst (chunk Sample.from_dict (Str "x")
         (sample_store (answer_text 500 "server error"))) =
  fst (chunk Sample.from_dict (Lst ["y"])
         (sample_store (answer_text 500 "server error"))) /\
  status_code (answer_text 500 "server error") =
  status_code (answer_text 500 "server error") /\
  text (answer_text 500 "server error") =
  text (answer_text 500 "server error").
Proof.
  split; [reflexivity|].
  apply (remote_error_determines_answer Sample.from_dict (Str "x") (Lst ["y"])
           (sample_store (answer_text 500 "server error"))
           (sample_store (answer_text 500 "server error"))
           (answer_text 500 "server error") (answer_text 500 "server error")
           eq_refl eq_refl);
    [discriminate | discriminate | reflexivity].
Defined.

Lemma request_determines_call_sample :
  sent (world (snd (chunk Sample.from_dict (Lst ["a"; "b"])
                      (sample_store (answer_ok (PyList [])))))) =
  sent (world (snd (chunk Sample.from_dict (Lst ["a"; "b"])
                      (sample_store (answer_text 500 "down"))))) /\
  Lst ["a"; "b"] = Lst ["a"; "b"].
Proof.
  split; [reflexivity|].
  apply (request_determines_call Sample.from_dict
           (Lst ["a"; "b"]) (Lst ["a"; "b"])
           (sample_store (answer_ok (PyList [])))
           (sample_store (answer_text 500 "down")) eq_refl eq_refl).
Defined.

Lemma construct_then_chunk_sample :
  __init__ "gpt2" 512 "python" (Some "secret")
    (sample_world None 200 (answer_ok (PyList []))) =
  (Ok sample_client,
   logged probe (sample_world None 200 (answer_ok (PyList [])))) /\
  exists k,
    resolved_key (Some "secret")
      (sample_world None 200 (answer_ok (PyList []))) = Some k /\
    k <> "" /\
    sent (world (snd (chunk Sample.from_dict (Str "def f(): pass")
                        (mkStore sample_client
                           (logged probe
                              (sample_world None 200
                                 (answer_ok (PyList [])))))))) =
    (sent (sample_world None 200 (answer_ok (PyList []))) ++
     [GET "https://api.chonkie.ai/";
      POST "https://api.chonkie.ai/v1/chunk/code"
        (PyDict [ ("text", text_value (Str "def f(): pass"));
                  ("tokenizer_or_token_counter", PyStr "gpt2");
                  ("chunk_size", PyInt 512);
                  ("language", PyStr "python");
                  ("lang", PyStr "python");
                  ("include_nodes", PyBool false) ])
        [("Authorization", ("Bearer " ++ k)%string)]])%list.
Proof.
  split; [reflexivity|].
  apply (construct_then_chunk Sample.from_dict "gpt2" 512 "python"
           (Some "secret") (sample_world None 200 (answer_ok (PyList [])))
           sample_client _ (Str "def f(): pass") eq_refl).
Defined.
